(** * A shallow embedding of [webscraper.py] (FileOperation, URLcheck, Scraper)

    Strings are Stdlib strings, handled as lists of ASCII characters where
    the Python code indexes into them.  The visited-links dictionary
    [file_op.visitedlinks] is a [gmap string status].  The asynchronous
    crawl is modelled as a state and exception monad over the ledger and an
    event trace (requests, file writes, prints, ledger saves); the tasks of
    one [asyncio.gather] are run one after the other, which is one of the
    schedules the event loop can produce. *)

From Stdlib Require Import String Ascii List Bool Arith Lia.
From stdpp Require Import base gmap strings list.
Import ListNotations.
Open Scope string_scope.

(* ------------------------------------------------------------------ *)
(** ** Python string helpers over [list ascii] *)

Module Py.

Definition chars (s : string) : list ascii := list_ascii_of_string s.
Definition str (l : list ascii) : string := string_of_list_ascii l.

(** [s.lower()] on ASCII text. *)
Definition lower_char (c : ascii) : ascii :=
  let n := nat_of_ascii c in
  if ((65 <=? n) && (n <=? 90))%nat then ascii_of_nat (n + 32) else c.
Definition lower (s : string) : string := str (map lower_char (chars s)).

Fixpoint prefix_of (p l : list ascii) : bool :=
  match p, l with
  | [], _ => true
  | a :: p', b :: l' => Ascii.eqb a b && prefix_of p' l'
  | _ :: _, [] => false
  end.

(** [s.startswith(p)], [s.endswith(p)], [p in s]. *)
Definition startswith (s p : string) : bool := prefix_of (chars p) (chars s).
Definition endswith (s p : string) : bool :=
  prefix_of (rev (chars p)) (rev (chars s)).
Fixpoint contains_l (p l : list ascii) : bool :=
  match l with
  | [] => prefix_of p []
  | _ :: l' => prefix_of p l || contains_l p l'
  end.
Definition contains (s p : string) : bool := contains_l (chars p) (chars s).

(** [l.find(c, start)]: first index [>= start] holding [c]. *)
Fixpoint find_from (c : ascii) (l : list ascii) (i : nat) : option nat :=
  match l with
  | [] => None
  | x :: l' => if Ascii.eqb x c then Some i else find_from c l' (S i)
  end.
Definition find_char (c : ascii) (l : list ascii) (start : nat) : option nat :=
  option_map (fun k => k + start) (find_from c (skipn start l) 0).
Definition rfind_char (c : ascii) (l : list ascii) : option nat :=
  option_map (fun k => length l - 1 - k) (find_from c (rev l) 0).

(** [s.split(c, 1)] when [c in s]. *)
Definition split1 (c : ascii) (l : list ascii) : option (list ascii * list ascii) :=
  match find_char c l 0 with
  | Some i => Some (firstn i l, skipn (S i) l)
  | None => None
  end.

(** [s.strip(c)] for a single character [c]. *)
Fixpoint lstrip_l (c : ascii) (l : list ascii) : list ascii :=
  match l with
  | x :: l' => if Ascii.eqb x c then lstrip_l c l' else l
  | [] => []
  end.
Definition strip (c : ascii) (s : string) : string :=
  str (rev (lstrip_l c (rev (lstrip_l c (chars s))))).

(** [s.replace(old, new)] for a non-empty [old]: every non-overlapping
    occurrence, scanning left to right. *)
Fixpoint replace_aux (fuel : nat) (old new l : list ascii) : list ascii :=
  match fuel, l with
  | O, _ => l
  | _, [] => []
  | S f, x :: l' =>
      if prefix_of old l then new ++ replace_aux f old new (skipn (length old) l)
      else x :: replace_aux f old new l'
  end.
Definition replace (s old new : string) : string :=
  str (replace_aux (length (chars s)) (chars old) (chars new) (chars s)).

(** [os.path.join(a, b)] on POSIX. *)
Definition path_join (a b : string) : string :=
  if startswith b "/" then b
  else if (a =? "") || endswith a "/" then a ++ b
  else a ++ "/" ++ b.

End Py.

(* ------------------------------------------------------------------ *)
(** ** [urllib.parse.urlparse] *)

Module Url.
Import Py.

Record parse_result := {
  scheme : string; netloc : string; path : string;
  params : string; query : string; fragment : string }.

Definition is_alpha (c : ascii) : bool :=
  let n := nat_of_ascii c in (((65 <=? n) && (n <=? 90)) || ((97 <=? n) && (n <=? 122)))%nat.
Definition is_digit (c : ascii) : bool :=
  let n := nat_of_ascii c in ((48 <=? n) && (n <=? 57))%nat.
(** [scheme_chars]: letters, digits and [+-.]. *)
Definition scheme_char (c : ascii) : bool :=
  is_alpha c || is_digit c || Ascii.eqb c "+" || Ascii.eqb c "-" || Ascii.eqb c ".".

Definition uses_params : list string :=
  [""; "ftp"; "hdl"; "prospero"; "http"; "imap"; "https"; "shttp"; "rtsp";
   "rtsps"; "rtspu"; "sip"; "sips"; "mms"; "sftp"; "tel"].

(** The scheme split of [urlsplit]. *)
Definition split_scheme (l : list ascii) : string * list ascii :=
  match find_char ":" l 0 with
  | Some (S _ as i) =>
      match l with
      | c0 :: _ =>
          if is_alpha c0 && forallb scheme_char (firstn i l)
          then (lower (str (firstn i l)), skipn (S i) l)
          else ("", l)
      | [] => ("", l)
      end
  | _ => ("", l)
  end.

Definition min_opt (a : nat) (b : option nat) : nat :=
  match b with Some k => Nat.min a k | None => a end.

(** [_splitnetloc(url, 2)]. *)
Definition split_netloc (l : list ascii) : list ascii * list ascii :=
  let delim := min_opt (min_opt (min_opt (length l) (find_char "/" l 2))
                          (find_char "?" l 2)) (find_char "#" l 2) in
  (skipn 2 (firstn delim l), skipn delim l).

(** [_splitparams]. *)
Definition split_params (l : list ascii) : list ascii * list ascii :=
  match rfind_char "/" l with
  | Some j =>
      match find_char ";" l j with
      | Some i => (firstn i l, skipn (S i) l)
      | None => (l, [])
      end
  | None =>
      match find_char ";" l 0 with
      | Some i => (firstn i l, skipn (S i) l)
      | None => (l, [])
      end
  end.

(** [_WHATWG_C0_CONTROL_OR_SPACE]: the characters up to the space. *)
Definition c0_control_or_space (c : ascii) : bool := (nat_of_ascii c <=? 32)%nat.
(** [_UNSAFE_URL_BYTES_TO_REMOVE]: tab, CR and LF. *)
Definition unsafe_url_byte (c : ascii) : bool :=
  Ascii.eqb c "009" || Ascii.eqb c "013" || Ascii.eqb c "010".

Fixpoint lstrip_c0 (l : list ascii) : list ascii :=
  match l with
  | c :: l' => if c0_control_or_space c then lstrip_c0 l' else l
  | [] => []
  end.

(** The start of [urlsplit]: [url.lstrip(_WHATWG_C0_CONTROL_OR_SPACE)], then
    every tab, CR and LF removed. *)
Definition sanitize (l : list ascii) : list ascii :=
  filter (fun c => negb (unsafe_url_byte c)) (lstrip_c0 l).

(** [urllib.parse.urlparse] with the default scheme and fragments allowed.
    The [ValueError] that [urlsplit] raises for a netloc with unbalanced or
    malformed square brackets (IPv6 literals), or whose non-ASCII characters
    normalise to a delimiter, is not modelled: the URLs of this crawl are
    taken to parse. *)
Definition urlparse (url : string) : parse_result :=
  let '(sch, rest) := split_scheme (sanitize (chars url)) in
  let '(net, rest) :=
    if prefix_of (chars "//") rest then split_netloc rest else ([], rest) in
  let '(rest, frag) :=
    match split1 "#" rest with Some p => p | None => (rest, []) end in
  let '(rest, q) :=
    match split1 "?" rest with Some p => p | None => (rest, []) end in
  let '(p, prm) :=
    if existsb (String.eqb sch) uses_params && existsb (Ascii.eqb ";") rest
    then split_params rest else (rest, []) in
  {| scheme := sch; netloc := str net; path := str p; params := str prm;
     query := str q; fragment := str frag |}.

End Url.

(* ------------------------------------------------------------------ *)
(** ** FileOperation and URLcheck *)

Module Webscraper.

(** [FileOperation.create_file]. *)
Definition create_file (data_folder url : string) : string :=
  let parsed_url := Url.urlparse url in
  let path := Py.replace (Py.strip "/" (Url.path parsed_url)) "/" "_" in
  let path := if path =? "" then "index" else path in
  Py.path_join data_folder (Url.netloc parsed_url ++ "_" ++ path ++ ".txt").

(** The file name used by [FileOperation.write_pdf]. *)
Definition pdf_filename (data_folder url : string) : string :=
  Py.replace (create_file data_folder url) ".txt" ".pdf".

(** [URLcheck.check_link]. *)
Definition check_link (domain url : string) : bool :=
  String.eqb (Url.netloc (Url.urlparse url)) domain.

(** The values stored in [visitedlinks]. *)
Inductive status := Pending | Success | Failed.

(** [FileOperation.load_status]: the decoded JSON file, if it exists. *)
Definition load_status (status_file : option (gmap string status)) : gmap string status :=
  match status_file with Some m => m | None => ∅ end.

(** The check-and-set done under [self.lock] at the start of [scrape]:
    [true] when the URL was absent and is now [pending]. *)
Definition claim (visitedlinks : gmap string status) (url : string)
  : bool * gmap string status :=
  match visitedlinks !! url with
  | Some _ => (false, visitedlinks)
  | None => (true, <[url := Pending]> visitedlinks)
  end.

(* ------------------------------------------------------------------ *)
(** ** Effects: a state and exception monad *)

(** The two code paths that call [session.get]. *)
Inductive req_kind := HtmlFetch | PdfDownload.

Inductive event :=
  | EvGet (k : req_kind) (url : string)          (* session.get(url) *)
  | EvPrint (msg : string)                       (* print(...) *)
  | EvWriteText (file content : string)          (* FileOperation.write_text *)
  | EvWritePdf (file content : string)           (* FileOperation.write_pdf *)
  | EvExtern (url : string)                      (* line appended to extralinks.txt *)
  | EvSleep (secs : nat)                         (* asyncio.sleep *)
  | EvSave (visitedlinks : gmap string status).  (* FileOperation.save_status *)

Record world := { ledger : gmap string status; trace : list event }.

(** Outcome of a Python call: a value or a raised exception. *)
Inductive outcome (A : Type) := Ret (a : A) | Exn (e : string).
Arguments Ret {A} a.
Arguments Exn {A} e.

Definition M (A : Type) : Type := world -> outcome A * world.

#[global] Instance M_ret : MRet M := fun A a w => (Ret a, w).
#[global] Instance M_bind : MBind M := fun A B k m w =>
  match m w with
  | (Ret a, w') => k a w'
  | (Exn e, w') => (Exn e, w')
  end.

Definition raise {A} (e : string) : M A := fun w => (Exn e, w).

(** [try: m except Exception as e: h(e)]. *)
Definition try_except {A} (m : M A) (h : string -> M A) : M A := fun w =>
  match m w with
  | (Exn e, w') => h e w'
  | r => r
  end.

Definition emit (e : event) : M unit := fun w =>
  (Ret tt, {| ledger := ledger w; trace := trace w ++ [e] |}).

(** [self.file_op.visitedlinks[url] = st] (under the lock). *)
Definition set_status (url : string) (st : status) : M unit := fun w =>
  (Ret tt, {| ledger := <[url := st]> (ledger w); trace := trace w |}).

Definition claim_m (url : string) : M bool := fun w =>
  let '(b, l) := claim (ledger w) url in
  (Ret b, {| ledger := l; trace := trace w |}).

(** [FileOperation.save_status]: the whole dictionary is dumped.  The
    file system is taken to accept every write: an [OSError] from [open] or
    [write] is outside this model, here and in [write_text] and
    [write_pdf]. *)
Definition save_status : M unit := fun w => emit (EvSave (ledger w)) w.

(** [links.add(x)] on the set built by [extract_links], kept in order of
    first insertion. *)
Definition set_add (x : string) (links : list string) : list string :=
  if bool_decide (x ∈ links) then links else links ++ [x].

(** What the link loop of [scrape] does with one link. *)
Inductive route := Skip | ToPdf | ToScrape.

Definition route_of (link : string) : route :=
  if existsb (fun substring => Py.contains (Py.lower link) substring) ["lxml"]
  then Skip
  else if Py.endswith (Py.lower link) ".pdf" then ToPdf else ToScrape.

(** An HTTP response as [session.get] yields it: a status with a body that
    [response.text()] decodes (the text is the body), a status with a body
    that [response.text()] cannot decode (its bytes, for [response.read()]),
    or an exception raised by the transport. *)
Inductive response :=
  | Response (status : nat) (body : string)
  | Undecodable (status : nat) (raw : string)
  | TransportError (msg : string).

(** [response.status]. *)
Definition resp_status (r : response) : nat :=
  match r with
  | Response st _ | Undecodable st _ => st
  | TransportError _ => 0
  end.

Section Crawl.

(** [URLcheck.domain], [FileOperation.data_folder], [request_delay]. *)
Variable domain data_folder : string.
Variable request_delay : nat.
(** The network as seen by [session.get]. *)
Variable get : string -> response.
(** [BeautifulSoup(content, 'html.parser')] ([None]: it raises). *)
Variable soup : Type.
Variable parse : string -> option soup.
(** The [href] of every [a] tag with one, in document order. *)
Variable hrefs : soup -> list string.
(** [urljoin(base, href)] ([None]: it raises). *)
Variable urljoin : string -> string -> option string.
(** The text [process_page] extracts ([None]: the extraction raises). *)
Variable page_text : soup -> option string.

(** [async with session.get(url) as response]. *)
Definition http_get (k : req_kind) (url : string) : M response :=
  emit (EvGet k url) ;;
  match get url with
  | TransportError msg => raise msg
  | r => mret r
  end.

(** [await response.text()]: the body decoded strictly as text. *)
Definition text (r : response) : M string :=
  match r with
  | Response _ body => mret body
  | Undecodable _ _ => raise "UnicodeDecodeError"
  | TransportError msg => raise msg
  end.

(** [await response.read()]: the bytes of the body. *)
Definition read (r : response) : string :=
  match r with
  | Response _ body => body
  | Undecodable _ raw => raw
  | TransportError _ => ""
  end.

(** [Scraper.fetch]. *)
Definition fetch (url : string) : M (option string) :=
  response ← http_get HtmlFetch url;
  if (resp_status response =? 200)%nat
  then content ← text response; mret (Some content)
  else mret None.

Definition parse_m (content : string) : M soup :=
  match parse content with Some s => mret s | None => raise "parse error" end.

(** The loop of [URLcheck.extract_links]. *)
Fixpoint extract_loop (base_url : string) (hs : list string) (links : list string)
  : M (list string) :=
  match hs with
  | [] => mret links
  | href :: hs' =>
      match urljoin base_url href with
      | None => raise "ValueError"
      | Some full_url =>
          if check_link domain full_url
          then extract_loop base_url hs' (set_add full_url links)
          else emit (EvExtern full_url) ;; extract_loop base_url hs' links
      end
  end.

(** [URLcheck.extract_links]. *)
Definition extract_links (s : soup) (base_url : string) : M (list string) :=
  extract_loop base_url (hrefs s) [].

(** [FileOperation.write_text] and [FileOperation.write_pdf]. *)
Definition write_text (url content : string) : M unit :=
  emit (EvWriteText (create_file data_folder url) content).
Definition write_pdf (url content : string) : M unit :=
  emit (EvWritePdf (pdf_filename data_folder url) content).

(** [Scraper.process_page]. *)
Definition process_page (s : soup) (url : string) : M unit :=
  match page_text s with
  | Some main_text => write_text url main_text
  | None => raise "text extraction error"
  end.

(** [Scraper.download_pdf]. *)
Definition download_pdf (url : string) : M unit :=
  try_except
    (response ← http_get PdfDownload url;
     if (resp_status response =? 200)%nat
     then write_pdf url (read response) ;; set_status url Success
     else set_status url Failed)
    (fun e => emit (EvPrint ("Failed to download PDF " ++ url ++ ": " ++ e)) ;;
              set_status url Failed).

(** [asyncio.gather] over the task list: every task runs; the first exception, if
    any, is raised to the awaiting caller.  The tasks run one after the other,
    in list order: this is one schedule of the event loop, which may also
    interleave them at their [await] points. *)
Fixpoint gather_aux (tasks : list (M unit)) (first : option string) : M unit :=
  match tasks with
  | [] => match first with None => mret tt | Some e => raise e end
  | t :: ts => fun w =>
      let '(r, w') := t w in
      let first' := match first, r with
                    | None, Exn e => Some e
                    | _, _ => first
                    end in
      gather_aux ts first' w'
  end.
Definition gather (tasks : list (M unit)) : M unit := gather_aux tasks None.

(** The task list built by the [for link in links] loop of [scrape]. *)
Definition tasks_of (scrape_link : string -> M unit) (links : list string)
  : list (M unit) :=
  flat_map (fun link =>
    match route_of link with
    | Skip => []
    | ToPdf => [download_pdf link]
    | ToScrape => [scrape_link link]
    end) links.

(** [Scraper.scrape]; [fuel] bounds the depth of the recursion. *)
Fixpoint scrape (fuel : nat) (url : string) : M unit :=
  match fuel with
  | O => mret tt
  | S f =>
      claimed ← claim_m url;
      if negb claimed then mret tt else
      emit (EvPrint ("Visiting: " ++ url)) ;;
      content ← fetch url;
      match content with
      | None => set_status url Failed
      | Some c =>
          set_status url Success ;;
          try_except
            (s ← parse_m c;
             links ← extract_links s url;
             process_page s url ;;
             gather (tasks_of (scrape f) links) ;;
             emit (EvSleep request_delay))
            (fun e => emit (EvPrint ("An error occurred while processing " ++ url ++ ": " ++ e))) ;;
          save_status
      end
  end.

End Crawl.

(** The module-level setup of [webscraper.py]. *)
Definition mainurl : string := "https://www.wscacademy.org/".
Definition main_domain : string := Url.netloc (Url.urlparse mainurl).
Definition main_data_folder : string := "wscadata".
Definition main_request_delay : nat := 1.

End Webscraper.
Import Webscraper.

(** The host component of a netloc as written: the netloc without any
    userinfo (up to the last [@]) and without any port (from the first
    [:]); IPv6 literals are not handled.  Used to state the claims about
    hosts, not by the program. *)
Definition host_of (netloc : string) : string :=
  let l := Py.chars netloc in
  let l := match Py.rfind_char "@" l with Some i => skipn (S i) l | None => l end in
  let l := match Py.find_char ":" l 0 with Some i => firstn i l | None => l end in
  Py.str l.

(** Whether the trace records a [session.get] of [url] by the given path. *)
Definition req_kind_eqb (a b : req_kind) : bool :=
  match a, b with
  | HtmlFetch, HtmlFetch | PdfDownload, PdfDownload => true
  | _, _ => false
  end.
Definition requested (k : req_kind) (url : string) (t : list event) : bool :=
  existsb (fun e => match e with
                    | EvGet k' u => req_kind_eqb k k' && String.eqb u url
                    | _ => false
                    end) t.

(** Every step of the crawl only appends to the event trace. *)
Definition grows {A} (m : M A) : Prop :=
  forall w, exists rest, trace (snd (m w)) = (trace w ++ rest)%list.

(** One step of the fold computing the link set of [extract_links]. *)
Definition add_in_domain (domain : string) (acc : list string) (u : string) : list string :=
  if check_link domain u then set_add u acc else acc.

(* ------------------------------------------------------------------ *)
(** ** Concrete sites used to run the crawl *)

Definition site_pdf : string := "https://www.wscacademy.org/doc.pdf".
Definition site_pdf_query : string := "https://www.wscacademy.org/doc.pdf?dl=1".
Definition site_port_link : string := "https://www.wscacademy.org:443/about".

(** Pages are identified by their body; a page's soup is its list of hrefs,
    resolved by [urljoin] as given (all hrefs here are absolute). *)
Definition crawl_site (net : string -> response) (pages : string -> option (list string))
  (fuel : nat) (visited : option (gmap string status)) : outcome unit * world :=
  scrape main_domain main_data_folder main_request_delay net (list string) pages
    (fun hs => hs) (fun _ href => Some href) (fun _ => Some "text")
    fuel mainurl {| ledger := load_status visited; trace := [] |}.

(** A resumed crawl: the home page links to a PDF that the status file
    already records as [success]; the PDF is now answered with 404. *)
Definition resume_net (u : string) : response :=
  if String.eqb u mainurl then Response 200 "home" else Response 404 "".
Definition resume_pages (c : string) : option (list string) :=
  if String.eqb c "home" then Some [site_pdf] else Some [].
Definition resume_run : outcome unit * world :=
  crawl_site resume_net resume_pages 3 (Some (<[site_pdf := Success]> ∅)).

(** The host cannot be reached: every request raises. *)
Definition down_net (u : string) : response :=
  TransportError "Cannot connect to host www.wscacademy.org:443".
Definition down_run : outcome unit * world :=
  crawl_site down_net resume_pages 3 None.


(** The home page links to a PDF whose URL carries a query string. *)
Definition query_net (u : string) : response :=
  if String.eqb u mainurl then Response 200 "home" else Response 200 "%PDF-1.4".
Definition query_pages (c : string) : option (list string) :=
  if String.eqb c "home" then Some [site_pdf_query] else Some [].
Definition query_run : outcome unit * world :=
  crawl_site query_net query_pages 3 None.

(* ------------------------------------------------------------------ *)
(** ** [chatbot.py]: loading the saved pages *)

Module Chatbot.

(** [load_and_process_files]: [listdir] is [os.listdir(data_folder)] and
    [read path] the content of the file at [path]. *)
Fixpoint load_loop (data_folder : string) (listdir : list string) (read : string -> string)
  : list string :=
  match listdir with
  | [] => []
  | filename :: rest =>
      if Py.endswith filename ".txt"
      then read (Py.path_join data_folder filename) :: load_loop data_folder rest read
      else load_loop data_folder rest read
  end.
Definition load_and_process_files (data_folder : string) (listdir : list string)
  (read : string -> string) : list string :=
  load_loop data_folder listdir read.

End Chatbot.

(* ------------------------------------------------------------------ *)
(** ** Vocabulary of the crawl invariants *)

(** The URLs requested on the HTML path ([Scraper.fetch]), in order. *)
Fixpoint html_reqs (t : list event) : list string :=
  match t with
  | [] => []
  | EvGet HtmlFetch u :: t' => u :: html_reqs t'
  | _ :: t' => html_reqs t'
  end.

(** An entry holding [success] or [failed]. *)
Definition terminal (o : option status) : bool :=
  match o with Some Success | Some Failed => true | _ => false end.

(** What a run from [w] to [w'] that appended the events [new] keeps: it
    only appends to the trace, removes no ledger entry, leaves terminal
    entries terminal, and requests on the HTML path only URLs absent
    from [w], each once, all present in [w']. *)
Definition run_ok (w w' : world) (new : list event) : Prop :=
  trace w' = (trace w ++ new)%list /\
  (forall k, is_Some (ledger w !! k) -> is_Some (ledger w' !! k)) /\
  (forall k, terminal (ledger w !! k) = true -> terminal (ledger w' !! k) = true) /\
  NoDup (html_reqs new) /\
  (forall u, u ∈ html_reqs new -> ledger w !! u = None /\ is_Some (ledger w' !! u)).

(** A step of the crawl all of whose runs are [run_ok]. *)
Definition crawl_step_ok {A} (m : M A) : Prop :=
  forall w, exists new, run_ok w (snd (m w)) new.

(* ------------------------------------------------------------------ *)
(** * Theorems *)

Example urlparse_ex1 :
  Url.urlparse "https://www.wscacademy.org:443/a/b;x?q=1#frag" =
  {| Url.scheme := "https"; Url.netloc := "www.wscacademy.org:443";
     Url.path := "/a/b"; Url.params := "x"; Url.query := "q=1";
     Url.fragment := "frag" |}.
Proof. reflexivity. Qed.

(** Leading spaces are stripped, a newline is removed, and the parameters
    start at the first ';' after the last '/'. *)
Example urlparse_ex2 :
  Url.urlparse "  https://www.wscacademy.org/a;x/b
;y" =
  {| Url.scheme := "https"; Url.netloc := "www.wscacademy.org";
     Url.path := "/a;x/b"; Url.params := "y"; Url.query := "";
     Url.fragment := "" |}.
Proof. reflexivity. Qed.

Ltac munfold :=
  unfold mbind, M_bind, mret, M_ret, emit, set_status, claim_m, raise,
    try_except, save_status in *; cbn in *.

Section CrawlFacts.
Variable domain data_folder : string.
Variable request_delay : nat.
Variable get : string -> response.
Variable soup : Type.
Variable parse : string -> option soup.
Variable hrefs : soup -> list string.
Variable urljoin : string -> string -> option string.
Variable page_text : soup -> option string.

Local Abbreviation scrape := (@scrape domain data_folder request_delay get soup parse hrefs urljoin page_text).
Local Abbreviation fetch := (@fetch get).
Local Abbreviation extract_loop := (@extract_loop domain urljoin).
Local Abbreviation add_in_domain := (add_in_domain domain).

Lemma extract_loop_ledger base hs links w :
  ledger (snd (extract_loop base hs links w)) = ledger w.
Proof.
  revert links w; induction hs as [|h hs IH]; intros links w; simpl; [done|].
  destruct (urljoin base h); [|done].
  destruct (check_link domain s); [apply IH|].
  unfold mbind, M_bind, emit. cbn. rewrite IH. done.
Qed.

Lemma fetch_spec url st body w :
  get url = Response st body ->
  fetch url w = (Ret (if (st =? 200)%nat then Some body else None),
                 {| ledger := ledger w; trace := trace w ++ [EvGet HtmlFetch url] |}).
Proof.
  intros Hg. unfold fetch, http_get. munfold. rewrite Hg. munfold.
  destruct (st =? 200)%nat; reflexivity.
Qed.


Lemma extract_loop_raises base hs links w :
  (exists h, h ∈ hs /\ urljoin base h = None) ->
  exists e w', extract_loop base hs links w = (Exn e, w') /\ ledger w' = ledger w.
Proof.
  revert links w; induction hs as [|h hs IH]; intros links w [h' [Hin Hj]].
  - by apply elem_of_nil in Hin.
  - apply elem_of_cons in Hin as [->|Hin]; simpl.
    + rewrite Hj. by exists "ValueError", w.
    + destruct (urljoin base h) as [full|]; [|by exists "ValueError", w].
      destruct (check_link domain full).
      * apply IH. eauto.
      * unfold mbind, M_bind, emit. cbn.
        destruct (IH links {| ledger := ledger w; trace := trace w ++ [EvExtern full] |})
          as (e & w' & He & Hl); [eauto|].
        rewrite He. by exists e, w'.
Qed.

(** C8: when a page is fetched with status 200 and parsing, link
    extraction or text extraction raises, the exception is caught inside
    [scrape], logged with a print, [scrape] returns normally, and the
    page's ledger entry is [success]. *)
Theorem scrape_processing_error_caught f url content w :
  ledger w !! url = None -> get url = Response 200 content ->
  (parse content = None \/
   (exists s, parse content = Some s /\ exists h, h ∈ hrefs s /\ urljoin url h = None) \/
   (exists s, parse content = Some s /\ page_text s = None)) ->
  exists e w', scrape (S f) url w = (Ret tt, w') /\ ledger w' !! url = Some Success /\
    EvPrint ("An error occurred while processing " ++ url ++ ": " ++ e) ∈ trace w'.
Proof.
  intros Hn Hg Hp. cbn. unfold claim_m, claim. munfold. rewrite Hn. munfold.
  unfold fetch, http_get. munfold. rewrite Hg. munfold.
  unfold parse_m, extract_links, process_page.
  destruct Hp as [Hp | [(s & Hp & Hh) | (s & Hp & Ht)]]; rewrite Hp; munfold.
  - eexists _, _. split; [reflexivity|]. split.
    + cbn. by rewrite lookup_insert_eq.
    + apply elem_of_app. left. apply elem_of_app. right. by left.
  - match goal with
    | |- context [extract_loop url (hrefs s) [] ?w2] =>
        destruct (extract_loop_raises url (hrefs s) [] w2 Hh) as (e & w' & He & Hl);
        rewrite He
    end.
    cbn. eexists _, _. split; [reflexivity|]. cbn. rewrite Hl. cbn. split.
    + by rewrite lookup_insert_eq.
    + apply elem_of_app. left. apply elem_of_app. right. by left.
  - rewrite Ht.
    match goal with
    | |- context [extract_loop url (hrefs s) [] ?w2] =>
        pose proof (extract_loop_ledger url (hrefs s) [] w2) as Hl;
        destruct (extract_loop url (hrefs s) [] w2) as [[links|e] w'] eqn:He
    end; cbn in *; (eexists _, _; split; [reflexivity|]); cbn; rewrite Hl; cbn;
      (split; [by rewrite lookup_insert_eq|]);
      apply elem_of_app; left; apply elem_of_app; right; by left.
Qed.

Lemma extract_loop_resolved base hs links fulls w :
  mapM (urljoin base) hs = Some fulls ->
  extract_loop base hs links w =
    (Ret (fold_left add_in_domain fulls links),
     {| ledger := ledger w;
        trace := trace w ++ map EvExtern (List.filter (fun u => negb (check_link domain u)) fulls) |}).
Proof.
  revert links fulls w; induction hs as [|h hs IH]; intros links fulls w Hm.
  - simpl in Hm. injection Hm as <-. destruct w; cbn. by rewrite app_nil_r.
  - simpl in Hm. destruct (urljoin base h) as [full|] eqn:Hj; [|done].
    simpl in Hm. destruct (mapM (urljoin base) hs) as [fs|] eqn:Hfs; [|done].
    injection Hm as <-. cbn -[add_in_domain]. rewrite Hj.
    assert (Ha : add_in_domain links full =
                 if check_link domain full then set_add full links else links)
      by reflexivity.
    rewrite Ha. destruct (check_link domain full); cbn -[add_in_domain].
    + by rewrite (IH _ fs).
    + unfold mbind, M_bind, emit. rewrite (IH _ fs); [|done].
      cbn -[add_in_domain]. by rewrite <- app_assoc.
Qed.

Lemma fold_add_in_domain_elem fulls links x :
  x ∈ fold_left add_in_domain fulls links <->
  x ∈ links \/ (x ∈ fulls /\ check_link domain x = true).
Proof.
  revert links; induction fulls as [|u fulls IH]; intros links; simpl.
  - split; [by left|]. intros [H|[H _]]; [done|]. by apply elem_of_nil in H.
  - rewrite IH. unfold add_in_domain, set_add.
    destruct (check_link domain u) eqn:Hc; [case_bool_decide|]; rewrite ?elem_of_app, ?elem_of_cons;
      split; intros; repeat match goal with H : _ \/ _ |- _ => destruct H | H : _ /\ _ |- _ => destruct H end;
      subst; rewrite ?elem_of_nil in *; try congruence; tauto.
Qed.

Lemma fold_add_in_domain_nodup fulls links :
  NoDup links -> NoDup (fold_left add_in_domain fulls links).
Proof.
  revert links; induction fulls as [|u fulls IH]; intros links Hnd; simpl; [done|].
  apply IH. unfold add_in_domain, set_add.
  destruct (check_link domain u); [case_bool_decide|]; [done| |done].
  apply NoDup_app. split; [done|]. split; [|apply NoDup_singleton].
  intros x Hx Hx'. apply list_elem_of_singleton in Hx'. by subst.
Qed.

(** C6 (amended): [check_link] is true exactly when the URL's netloc
    (host together with any userinfo and port, compared as written) equals
    the configured domain; [extract_links] returns, without duplicates,
    exactly the resolved links that pass [check_link], and appends exactly
    the others, in order, to the external-link log. *)
Theorem extract_links_netloc_partition :
  (forall dom url, check_link dom url = true <-> Url.netloc (Url.urlparse url) = dom) /\
  (forall (s : soup) base fulls w,
     mapM (urljoin base) (hrefs s) = Some fulls ->
     exists links,
       extract_links domain soup hrefs urljoin s base w =
         (Ret links,
          {| ledger := ledger w;
             trace := trace w ++ map EvExtern
                        (List.filter (fun u => negb (check_link domain u)) fulls) |}) /\
       NoDup links /\
       (forall x, x ∈ links <-> x ∈ fulls /\ check_link domain x = true) /\
       (forall x, check_link domain x = true ->
          EvExtern x ∉ map EvExtern (List.filter (fun u => negb (check_link domain u)) fulls))).
Proof.
  split.
  - intros dom url. unfold check_link. apply String.eqb_eq.
  - intros s base fulls w Hm. exists (fold_left add_in_domain fulls []).
    split; [by apply extract_loop_resolved|]. split; [apply fold_add_in_domain_nodup, NoDup_nil_2|].
    split.
    + intros x. rewrite fold_add_in_domain_elem, elem_of_nil. tauto.
    + intros x Hc Hin. apply list_elem_of_fmap in Hin as (y & Hy & Hin).
      injection Hy as ->. apply list_elem_of_In, filter_In in Hin as [_ Hn].
      rewrite Hc in Hn. discriminate.
Qed.

Lemma grows_ret {A} (a : A) : grows (mret a).
Proof. intros w. exists []. by rewrite app_nil_r. Qed.
Lemma grows_raise {A} e : grows (A:=A) (raise e).
Proof. intros w. exists []. by rewrite app_nil_r. Qed.
Lemma grows_emit e : grows (emit e).
Proof. intros w. by exists [e]. Qed.
Lemma grows_set_status url st : grows (set_status url st).
Proof. intros w. exists []. by rewrite app_nil_r. Qed.
Lemma grows_claim_m url : grows (claim_m url).
Proof.
  intros w. unfold claim_m. destruct (claim (ledger w) url). exists []. by rewrite app_nil_r.
Qed.
Lemma grows_save_status : grows save_status.
Proof. intros w. by exists [EvSave (ledger w)]. Qed.
Lemma grows_bind {A B} (m : M A) (k : A -> M B) :
  grows m -> (forall a, grows (k a)) -> grows (m ≫= k).
Proof.
  intros Hm Hk w. unfold mbind, M_bind. destruct (Hm w) as [r1 H1].
  destruct (m w) as [[a|e] w1]; cbn in *.
  - destruct (Hk a w1) as [r2 H2]. exists (r1 ++ r2)%list. by rewrite H2, H1, app_assoc.
  - by exists r1.
Qed.
Lemma grows_try {A} (m : M A) (h : string -> M A) :
  grows m -> (forall e, grows (h e)) -> grows (try_except m h).
Proof.
  intros Hm Hh w. unfold try_except. destruct (Hm w) as [r1 H1].
  destruct (m w) as [[a|e] w1]; cbn in *.
  - by exists r1.
  - destruct (Hh e w1) as [r2 H2]. exists (r1 ++ r2)%list. by rewrite H2, H1, app_assoc.
Qed.

Create HintDb grows.
#[local] Hint Resolve grows_ret grows_raise grows_emit grows_set_status grows_claim_m
  grows_save_status grows_bind grows_try : grows.

Lemma grows_http_get k url : grows (http_get get k url).
Proof. unfold http_get. apply grows_bind; [auto with grows|]. intros [].
  destruct (get url); auto with grows. Qed.
Lemma grows_fetch url : grows (fetch url).
Proof. unfold fetch. apply grows_bind; [apply grows_http_get|]. intros r.
  destruct (resp_status r =? 200)%nat; [|auto with grows].
  apply grows_bind; [|auto with grows]. unfold text. destruct r; auto with grows. Qed.
Lemma grows_parse_m c : grows (parse_m soup parse c).
Proof. unfold parse_m. destruct (parse c); auto with grows. Qed.
Lemma grows_extract_loop base hs links : grows (extract_loop base hs links).
Proof.
  revert links; induction hs as [|h hs IH]; intros links; simpl; [auto with grows|].
  destruct (urljoin base h); [|auto with grows].
  destruct (check_link domain s); auto with grows.
Qed.
Lemma grows_process_page (sp : soup) url : grows (process_page data_folder soup page_text sp url).
Proof.
  unfold process_page, write_text. destruct (page_text sp); auto with grows.
Qed.
Lemma grows_download_pdf url : grows (download_pdf data_folder get url).
Proof.
  unfold download_pdf, write_pdf. apply grows_try; [|auto with grows].
  apply grows_bind; [apply grows_http_get|]. intros r.
  destruct (resp_status r =? 200)%nat; auto with grows.
Qed.
Lemma grows_gather_aux ts first :
  Forall grows ts -> grows (gather_aux ts first).
Proof.
  intros Hts. revert first; induction Hts as [|t ts Ht Hts IH]; intros first w; simpl.
  - destruct first; [apply grows_raise|apply grows_ret].
  - destruct (Ht w) as [r1 H1]. destruct (t w) as [r w1].
    destruct (IH (match first, r with None, Exn e => Some e | _, _ => first end) w1)
      as [r2 H2].
    exists (r1 ++ r2)%list. cbn in *. by rewrite H2, H1, app_assoc.
Qed.
Lemma grows_tasks_of g links :
  (forall l, grows (g l)) -> Forall grows (tasks_of data_folder get g links).
Proof.
  intros Hg. unfold tasks_of. apply Forall_forall. intros t Ht.
  apply list_elem_of_In, in_flat_map in Ht as (l & _ & Ht).
  destruct (route_of l); simpl in Ht; [done| |];
    (destruct Ht as [<-|[]]; [auto using grows_download_pdf]).
Qed.
Lemma grows_scrape f url : grows (scrape f url).
Proof.
  revert url; induction f as [|f IH]; intros url; simpl; [auto with grows|].
  apply grows_bind; [auto with grows|]. intros b. destruct b; simpl; [|auto with grows].
  apply grows_bind; [auto with grows|]. intros _.
  apply grows_bind; [apply grows_fetch|]. intros [c|]; [|auto with grows].
  apply grows_bind; [auto with grows|]. intros _.
  apply grows_bind; [|auto with grows].
  apply grows_try; [|auto with grows].
  apply grows_bind; [apply grows_parse_m|]. intros sp.
  apply grows_bind; [apply grows_extract_loop|]. intros links.
  apply grows_bind; [apply grows_process_page|]. intros _.
  apply grows_bind; [|auto with grows].
  apply grows_gather_aux, grows_tasks_of. auto.
Qed.

Lemma bind_run {A B} (m : M A) (k : A -> M B) w :
  (m ≫= k) w = match m w with (Ret a, w') => k a w' | (Exn e, w') => (Exn e, w') end.
Proof. reflexivity. Qed.

Lemma bind_trace {A B} (m : M A) (k : A -> M B) w r w' :
  m w = (r, w') -> (forall a, grows (k a)) ->
  exists rest, trace (snd ((m ≫= k) w)) = (trace w' ++ rest)%list.
Proof.
  intros Hm Hk. rewrite bind_run, Hm. destruct r as [a|e]; [apply Hk|]. exists []. by rewrite app_nil_r.
Qed.

Lemma fetch_trace url w :
  trace (snd (fetch url w)) = (trace w ++ [EvGet HtmlFetch url])%list.
Proof.
  unfold fetch, http_get. munfold. destruct (get url) as [st b|st b|e]; munfold; [| |done];
    by destruct (st =? 200)%nat.
Qed.

Ltac solve_grows :=
  repeat (intros; match goal with
    | |- grows (_ ≫= _) => apply grows_bind
    | |- grows (try_except _ _) => apply grows_try
    | |- grows (gather_aux _ _) => apply grows_gather_aux
    | |- grows (gather _) => apply grows_gather_aux
    | |- Forall grows (tasks_of _ _ _ _) => apply grows_tasks_of
    | |- grows (Webscraper.fetch _ _) => apply grows_fetch
    | |- grows (parse_m _ _ _) => apply grows_parse_m
    | |- grows (Webscraper.extract_loop _ _ _ _ _) => apply grows_extract_loop
    | |- grows (extract_links _ _ _ _ _ _) => apply grows_extract_loop
    | |- grows (process_page _ _ _ _ _) => apply grows_process_page
    | |- grows (Webscraper.scrape _ _ _ _ _ _ _ _ _ _ _) => apply grows_scrape
    | |- grows (if ?b then _ else _) => destruct b
    | |- grows (match ?x with _ => _ end) => destruct x
    | _ => auto with grows
    end).

(** C5 (amended): a link found on a page is dropped when its lowercased
    URL contains "lxml", scheduled on [download_pdf] when the whole
    lowercased URL string ends with ".pdf", and scheduled on [scrape]
    otherwise (the task list is built link by link); a URL given to
    [scrape] itself, as the seed is by [main], is fetched on the HTML path
    whatever its suffix. *)
Theorem links_routed_by_url_suffix :
  (forall g link,
     tasks_of data_folder get g [link] =
       if Py.contains (Py.lower link) "lxml" then []
       else if Py.endswith (Py.lower link) ".pdf" then [download_pdf data_folder get link]
       else [g link]) /\
  (forall g l1 l2,
     tasks_of data_folder get g (l1 ++ l2) =
       (tasks_of data_folder get g l1 ++ tasks_of data_folder get g l2)%list) /\
  (forall f url w, ledger w !! url = None ->
     exists rest, trace (snd (scrape (S f) url w)) =
       (trace w ++ [EvPrint ("Visiting: " ++ url); EvGet HtmlFetch url] ++ rest)%list).
Proof.
  split; [|split].
  - intros g link. unfold tasks_of, route_of. simpl. rewrite orb_false_r.
    destruct (Py.contains (Py.lower link) "lxml"); [done|].
    destruct (Py.endswith (Py.lower link) ".pdf"); done.
  - intros g l1 l2. unfold tasks_of. apply flat_map_app.
  - intros f url w Hn. cbn [Webscraper.scrape].
    assert (Hc : claim_m url w =
              (Ret true, {| ledger := <[url := Pending]> (ledger w); trace := trace w |})).
    { unfold claim_m, claim. by rewrite Hn. }
    rewrite bind_run, Hc. cbn [negb]. rewrite bind_run. cbn [emit trace ledger].
    match goal with
    | |- context [(Webscraper.fetch get url ≫= ?k) ?w2] =>
        destruct (fetch url w2) as [r w3] eqn:Hf;
        pose proof (fetch_trace url w2) as Ht; rewrite Hf in Ht;
        destruct (bind_trace (fetch url) k w2 r w3 Hf) as [rest Hr]
    end.
    + solve_grows.
    + exists rest. cbn in Ht. rewrite Hr, Ht. cbn. by rewrite <- !app_assoc.
Qed.

(** C1: the check-and-set under the lock succeeds, marking the URL
    [pending], exactly when the URL has no entry; otherwise it fails and
    leaves the ledger unchanged.  Of two successive claims of one URL at
    most one succeeds, and exactly the first one when the URL was
    unclaimed. *)
Theorem claim_exactly_one_owner (l : gmap string status) (url : string) :
  (fst (claim l url) = true <-> l !! url = None) /\
  (l !! url = None -> claim l url = (true, <[url := Pending]> l)) /\
  (forall st, l !! url = Some st -> claim l url = (false, l)) /\
  (let '(b1, l1) := claim l url in
   let '(b2, l2) := claim l1 url in
   b1 && b2 = false /\ l2 = l1 /\ (l !! url = None -> b1 = true /\ b2 = false)).
Proof.
  unfold claim. destruct (l !! url) as [st|] eqn:Hl; cbn.
  - split; [split; [done|by intros ?]|]. split; [by intros ?|].
    split; [done|]. rewrite Hl. split; [done|]. split; [done|]. by intros ?.
  - split; [done|]. split; [done|]. split; [by intros ?|].
    rewrite lookup_insert_eq. done.
Qed.

End CrawlFacts.

(* ------------------------------------------------------------------ *)
(** ** Invariants of the crawl *)

Lemma html_reqs_app a b : html_reqs (a ++ b) = (html_reqs a ++ html_reqs b)%list.
Proof.
  induction a as [|e a IH]; [done|]. destruct e as [[] u| | | | | |]; cbn; by rewrite IH.
Qed.

Lemma run_ok_refl w : run_ok w w [].
Proof.
  split; [by rewrite app_nil_r|]. split; [done|]. split; [done|].
  split; [constructor|]. cbn. intros u Hu. by apply elem_of_nil in Hu.
Qed.

Lemma run_ok_trans w w1 w2 n1 n2 :
  run_ok w w1 n1 -> run_ok w1 w2 n2 -> run_ok w w2 (n1 ++ n2).
Proof.
  intros (T1 & P1 & Q1 & N1 & F1) (T2 & P2 & Q2 & N2 & F2).
  split; [by rewrite T2, T1, app_assoc|]. split; [auto|]. split; [auto|].
  rewrite html_reqs_app. split.
  - apply NoDup_app. split; [done|]. split; [|done].
    intros u H1 H2. destruct (F1 u H1) as [_ [s Hs]]. destruct (F2 u H2) as [Hn _]. congruence.
  - intros u Hu. apply elem_of_app in Hu as [Hu|Hu].
    + destruct (F1 u Hu) as [Hn Hs]. auto.
    + destruct (F2 u Hu) as [Hn Hs]. split; [|done].
      destruct (ledger w !! u) eqn:He; [|done].
      destruct (P1 u ltac:(by eexists)) as [s' Hs']. congruence.
Qed.

(** A step that leaves the ledger alone and records no HTML request. *)
Lemma run_ok_quiet w w' new :
  ledger w' = ledger w -> trace w' = (trace w ++ new)%list -> html_reqs new = [] ->
  run_ok w w' new.
Proof.
  intros Hl Ht Hh. split; [done|]. rewrite Hl, Hh. split; [done|]. split; [done|].
  split; [constructor|]. intros u Hu. by apply elem_of_nil in Hu.
Qed.

Lemma crawl_step_ok_bind {A B} (m : M A) (k : A -> M B) :
  crawl_step_ok m -> (forall a, crawl_step_ok (k a)) -> crawl_step_ok (m ≫= k).
Proof.
  intros Hm Hk w. rewrite bind_run. destruct (Hm w) as [n1 H1].
  destruct (m w) as [[a|e] w1]; cbn in *.
  - destruct (Hk a w1) as [n2 H2]. exists (n1 ++ n2)%list. by eapply run_ok_trans.
  - by exists n1.
Qed.

Lemma crawl_step_ok_try {A} (m : M A) (h : string -> M A) :
  crawl_step_ok m -> (forall e, crawl_step_ok (h e)) -> crawl_step_ok (try_except m h).
Proof.
  intros Hm Hh w. unfold try_except. destruct (Hm w) as [n1 H1].
  destruct (m w) as [[a|e] w1]; cbn in *.
  - by exists n1.
  - destruct (Hh e w1) as [n2 H2]. exists (n1 ++ n2)%list. by eapply run_ok_trans.
Qed.

Lemma crawl_step_ok_ret {A} (a : A) : crawl_step_ok (mret a).
Proof. intros w. exists []. apply run_ok_refl. Qed.
Lemma crawl_step_ok_raise {A} e : crawl_step_ok (A:=A) (raise e).
Proof. intros w. exists []. apply run_ok_refl. Qed.
Lemma crawl_step_ok_emit e : html_reqs [e] = [] -> crawl_step_ok (emit e).
Proof. intros He w. exists [e]. by apply run_ok_quiet. Qed.
Lemma crawl_step_ok_save_status : crawl_step_ok save_status.
Proof. intros w. exists [EvSave (ledger w)]. by apply run_ok_quiet. Qed.
Lemma crawl_step_ok_set_status url st : terminal (Some st) = true -> crawl_step_ok (set_status url st).
Proof.
  intros Hst w. exists []. split; [by rewrite app_nil_r|]. cbn. split; [|split; [|split]].
  - intros k Hk. destruct (decide (k = url)) as [->|Hne].
    + rewrite lookup_insert_eq. by eexists.
    + by rewrite lookup_insert_ne.
  - intros k Hk. destruct (decide (k = url)) as [->|Hne].
    + by rewrite lookup_insert_eq.
    + by rewrite lookup_insert_ne.
  - constructor.
  - intros u Hu. by apply elem_of_nil in Hu.
Qed.
Lemma crawl_step_ok_claim_m url : crawl_step_ok (claim_m url).
Proof.
  intros w. exists []. unfold claim_m, claim. destruct (ledger w !! url) eqn:Hl; cbn.
  - destruct w; apply run_ok_refl.
  - split; [by rewrite app_nil_r|]. cbn. split; [|split; [|split]].
    + intros k Hk. destruct (decide (k = url)) as [->|Hne].
      * rewrite lookup_insert_eq. by eexists.
      * by rewrite lookup_insert_ne.
    + intros k Hk. destruct (decide (k = url)) as [->|Hne].
      * by rewrite Hl in Hk.
      * by rewrite lookup_insert_ne.
    + constructor.
    + intros u Hu. by apply elem_of_nil in Hu.
Qed.

Section CrawlInvariants.
Variable domain data_folder : string.
Variable request_delay : nat.
Variable get : string -> response.
Variable soup : Type.
Variable parse : string -> option soup.
Variable hrefs : soup -> list string.
Variable urljoin : string -> string -> option string.
Variable page_text : soup -> option string.

Local Abbreviation scrape := (@scrape domain data_folder request_delay get soup parse hrefs urljoin page_text).
Local Abbreviation fetch := (@fetch get).

Create HintDb crawl_step_ok.
#[local] Hint Resolve crawl_step_ok_ret crawl_step_ok_raise crawl_step_ok_save_status crawl_step_ok_bind crawl_step_ok_try
  crawl_step_ok_claim_m : crawl_step_ok.
#[local] Hint Extern 1 (crawl_step_ok (emit _)) => (apply crawl_step_ok_emit; reflexivity) : crawl_step_ok.
#[local] Hint Extern 1 (crawl_step_ok (set_status _ _)) => (apply crawl_step_ok_set_status; reflexivity) : crawl_step_ok.

Lemma crawl_step_ok_http_get_pdf url : crawl_step_ok (http_get get PdfDownload url).
Proof. unfold http_get. apply crawl_step_ok_bind; [auto with crawl_step_ok|]. intros [].
  destruct (get url); auto with crawl_step_ok. Qed.
Lemma crawl_step_ok_parse_m c : crawl_step_ok (parse_m soup parse c).
Proof. unfold parse_m. destruct (parse c); auto with crawl_step_ok. Qed.
Lemma crawl_step_ok_extract_loop base hs links : crawl_step_ok (Webscraper.extract_loop domain urljoin base hs links).
Proof.
  revert links; induction hs as [|h hs IH]; intros links; simpl; [auto with crawl_step_ok|].
  destruct (urljoin base h); [|auto with crawl_step_ok].
  destruct (check_link domain s); auto with crawl_step_ok.
Qed.
Lemma crawl_step_ok_process_page (sp : soup) url : crawl_step_ok (process_page data_folder soup page_text sp url).
Proof.
  unfold process_page, write_text. destruct (page_text sp); auto with crawl_step_ok.
Qed.
Lemma crawl_step_ok_download_pdf url : crawl_step_ok (download_pdf data_folder get url).
Proof.
  unfold download_pdf, write_pdf. apply crawl_step_ok_try; [|auto with crawl_step_ok].
  apply crawl_step_ok_bind; [apply crawl_step_ok_http_get_pdf|]. intros r.
  destruct (resp_status r =? 200)%nat; auto with crawl_step_ok.
Qed.
Lemma crawl_step_ok_gather_aux ts first :
  Forall crawl_step_ok ts -> crawl_step_ok (gather_aux ts first).
Proof.
  intros Hts. revert first; induction Hts as [|t ts Ht Hts IH]; intros first w; simpl.
  - destruct first; [apply crawl_step_ok_raise|apply crawl_step_ok_ret].
  - destruct (Ht w) as [n1 H1]. destruct (t w) as [r w1]. cbn in H1.
    destruct (IH (match first, r with None, Exn e => Some e | _, _ => first end) w1)
      as [n2 H2].
    exists (n1 ++ n2)%list. by eapply run_ok_trans.
Qed.
Lemma crawl_step_ok_tasks_of g links :
  (forall l, crawl_step_ok (g l)) -> Forall crawl_step_ok (tasks_of data_folder get g links).
Proof.
  intros Hg. unfold tasks_of. apply Forall_forall. intros t Ht.
  apply list_elem_of_In, in_flat_map in Ht as (l & _ & Ht).
  destruct (route_of l); simpl in Ht; [done| |];
    (destruct Ht as [<-|[]]; [auto using crawl_step_ok_download_pdf]).
Qed.

Lemma fetch_run url w : exists r,
  fetch url w = (r, {| ledger := ledger w; trace := trace w ++ [EvGet HtmlFetch url] |}).
Proof.
  unfold Webscraper.fetch, http_get. munfold.
  destruct (get url) as [st b|st b|e]; munfold; [| |by eexists];
    destruct (st =? 200)%nat; by eexists.
Qed.

Lemma scrape_run f url w : exists new,
  run_ok w (snd (scrape f url w)) new /\ (f <> 0 -> ledger w !! url = None -> url ∈ html_reqs new).
Proof.
  revert url w; induction f as [|f IH]; intros url w.
  { exists []. split; [apply run_ok_refl|done]. }
  assert (IH' : forall u, crawl_step_ok (scrape f u)).
  { intros u w'. destruct (IH u w') as (n & Hn & _). eauto. }
  cbn [Webscraper.scrape]. rewrite bind_run.
  unfold claim_m at 1, claim. destruct (ledger w !! url) as [st|] eqn:Hl; cbn [negb].
  - exists []. split; [destruct w; apply run_ok_refl|done].
  - rewrite bind_run. unfold emit at 1. cbn [trace ledger snd].
    match goal with
    | |- context [(Webscraper.fetch get url ≫= ?k) ?w2] =>
        set (w1 := w2); set (kk := k)
    end.
    rewrite bind_run. destruct (fetch_run url w1) as [r Hf]. rewrite Hf.
    set (w3 := {| ledger := ledger w1; trace := trace w1 ++ [EvGet HtmlFetch url] |}).
    assert (Hk : forall a, crawl_step_ok (kk a)).
    { intros [c|]; subst kk; cbn beta iota; [|auto with crawl_step_ok].
      apply crawl_step_ok_bind; [auto with crawl_step_ok|]. intros _.
      apply crawl_step_ok_bind; [|auto with crawl_step_ok].
      apply crawl_step_ok_try; [|auto with crawl_step_ok].
      apply crawl_step_ok_bind; [apply crawl_step_ok_parse_m|]. intros sp.
      apply crawl_step_ok_bind; [apply crawl_step_ok_extract_loop|]. intros links.
      apply crawl_step_ok_bind; [apply crawl_step_ok_process_page|]. intros _.
      apply crawl_step_ok_bind; [|auto with crawl_step_ok].
      apply crawl_step_ok_gather_aux, crawl_step_ok_tasks_of. auto. }
    assert (H0 : run_ok w w3 [EvPrint ("Visiting: " ++ url); EvGet HtmlFetch url]).
    { subst w3 w1. unfold run_ok. cbn [ledger trace].
      split; [by rewrite <- app_assoc|]. split; [|split; [|split]].
      - intros k Hk'. destruct (decide (k = url)) as [->|Hne].
        + rewrite lookup_insert_eq. by eexists.
        + by rewrite lookup_insert_ne.
      - intros k Hk'. destruct (decide (k = url)) as [->|Hne].
        + by rewrite Hl in Hk'.
        + by rewrite lookup_insert_ne.
      - cbn. apply NoDup_singleton.
      - cbn. intros u Hu. apply list_elem_of_singleton in Hu as ->.
        rewrite lookup_insert_eq. split; [done|by eexists]. }
    assert (Hin : forall n, url ∈ html_reqs ([EvPrint ("Visiting: " ++ url); EvGet HtmlFetch url] ++ n)).
    { intros n. cbn. by left. }
    destruct r as [a|e].
    + destruct (Hk a w3) as [n2 H2]. eexists. split; [by eapply run_ok_trans|]. intros; apply Hin.
    + exists ([EvPrint ("Visiting: " ++ url); EvGet HtmlFetch url] ++ [])%list.
      rewrite app_nil_r. split; [exact H0|]. intros. cbn. by left.
Qed.

Lemma crawl_step_ok_scrape f url : crawl_step_ok (scrape f url).
Proof. intros w. destruct (scrape_run f url w) as (n & Hn & _). eauto. Qed.

Lemma scrape_records_url f url w : is_Some (ledger (snd (scrape (S f) url w)) !! url).
Proof.
  destruct (scrape_run (S f) url w) as (n & (_ & Hp & _ & _ & Hf) & Hu).
  destruct (ledger w !! url) eqn:Hl; [apply Hp; by eexists|].
  apply Hf, Hu; done.
Qed.

(** [Scraper.scrape] never deletes an entry of [visitedlinks] and never
    turns a [success] or [failed] entry back into [pending]: whatever the
    network and the pages, every key present before a crawl is present after
    it, and every terminal entry is still terminal. *)
Theorem scrape_keeps_entries f url w :
  (forall k, is_Some (ledger w !! k) -> is_Some (ledger (snd (scrape f url w)) !! k)) /\
  (forall k, terminal (ledger w !! k) = true -> terminal (ledger (snd (scrape f url w)) !! k) = true).
Proof. destruct (crawl_step_ok_scrape f url w) as (new & _ & Hp & Ht & _). auto. Qed.

(** A crawl requests each URL at most once on the HTML path, only URLs that
    had no entry when it started (so none recorded in a loaded status
    file), and each of them has an entry when it ends. *)
Theorem scrape_html_fetch_once f url w :
  exists new, trace (snd (scrape f url w)) = (trace w ++ new)%list /\
    NoDup (html_reqs new) /\
    (forall u, u ∈ html_reqs new -> ledger w !! u = None /\ is_Some (ledger (snd (scrape f url w)) !! u)).
Proof. destruct (crawl_step_ok_scrape f url w) as (new & Htr & _ & _ & Hn & Hf). eauto. Qed.

Lemma run_ok_size w w' new :
  run_ok w w' new -> size (ledger w) + length (html_reqs new) <= size (ledger w').
Proof.
  intros (_ & Hp & _ & Hnd & Hf).
  rewrite <- !size_dom, <- (size_list_to_set (C:=gset string) _ Hnd).
  rewrite <- size_union.
  - apply subseteq_size. intros k. rewrite elem_of_union, !elem_of_dom, elem_of_list_to_set.
    intros [Hk|Hk]; [by apply Hp|by apply Hf].
  - intros k. rewrite elem_of_dom, elem_of_list_to_set. intros Hk Hin.
    destruct (Hf k Hin) as [Hn _]. rewrite Hn in Hk. by destruct Hk.
Qed.

(** Every HTML request of a crawl adds an entry to [visitedlinks]: the
    number of URLs fetched on the HTML path is at most the number of
    entries the crawl adds. *)
Theorem scrape_requests_bounded_by_entries f url w :
  exists new, trace (snd (scrape f url w)) = (trace w ++ new)%list /\
    size (ledger w) + length (html_reqs new) <= size (ledger (snd (scrape f url w))).
Proof.
  destruct (crawl_step_ok_scrape f url w) as (new & Hr). exists new.
  split; [apply Hr|]. by apply run_ok_size.
Qed.

End CrawlInvariants.


(* ------------------------------------------------------------------ *)
(** ** File names and the chatbot loader *)

Lemma chars_app (a b : string) : Py.chars (a ++ b) = (Py.chars a ++ Py.chars b)%list.
Proof. unfold Py.chars. induction a as [|c a IH]; simpl; [done|]. by rewrite IH. Qed.

Lemma str_app_assoc (a b c : string) :
  String.append (String.append a b) c = String.append a (String.append b c).
Proof. induction a as [|x a IH]; [done|]. change (String x (String.append (String.append a b) c) = String x (String.append a (String.append b c))). by rewrite IH. Qed.

Lemma chars_str (l : list ascii) : Py.chars (Py.str l) = l.
Proof. apply list_ascii_of_string_of_list_ascii. Qed.

Lemma prefix_of_spec (p l : list ascii) :
  Py.prefix_of p l = true <-> exists r, l = (p ++ r)%list.
Proof.
  revert l; induction p as [|a p IH]; intros l; cbn.
  - split; [by exists l|done].
  - destruct l as [|b l].
    + split; [discriminate|]. by intros [r Hr].
    + rewrite andb_true_iff, Ascii.eqb_eq, IH. split.
      * intros [-> [r ->]]. by exists r.
      * intros [r Hr]. injection Hr as -> ->. eauto.
Qed.

Lemma endswith_spec (s p : string) :
  Py.endswith s p = true <-> exists q, Py.chars s = (q ++ Py.chars p)%list.
Proof.
  unfold Py.endswith. rewrite prefix_of_spec. split.
  - intros [r Hr]. exists (rev r).
    rewrite <- (rev_involutive (Py.chars s)), Hr, rev_app_distr, rev_involutive. done.
  - intros [q ->]. exists (rev q). by rewrite rev_app_distr.
Qed.

Lemma endswith_app (a b : string) : Py.endswith (a ++ b) b = true.
Proof. apply endswith_spec. exists (Py.chars a). apply chars_app. Qed.

(** A suffix of a name that ends with [p] and is at least as long as [p]
    ends with [p] too. *)
Lemma endswith_suffix (s n p : string) :
  Py.endswith s n = true -> Py.endswith s p = true ->
  length (Py.chars p) <= length (Py.chars n) -> Py.endswith n p = true.
Proof.
  rewrite !endswith_spec. intros [q1 H1] [q2 H2] Hlen. rewrite H1 in H2.
  apply (f_equal (@rev ascii)) in H2. rewrite !rev_app_distr in H2.
  assert (Hp : exists r, rev (Py.chars n) = (rev (Py.chars p) ++ r)%list).
  { revert H2 Hlen. rewrite <- (length_rev (Py.chars n)), <- (length_rev (Py.chars p)).
    generalize (rev (Py.chars n)) (rev (Py.chars p)) (rev q1) (rev q2).
    intros ln lp r1 r2. revert lp. induction ln as [|x ln IH]; intros lp H Hl.
    - destruct lp; [by exists []|]. cbn in Hl. lia.
    - destruct lp as [|y lp]; [by exists (x :: ln)|].
      cbn in H. injection H as -> H. cbn in Hl.
      destruct (IH lp H ltac:(lia)) as [r ->]. by exists r. }
  destruct Hp as [r Hr]. exists (rev r).
  rewrite <- (rev_involutive (Py.chars n)), Hr, rev_app_distr, rev_involutive. done.
Qed.

Lemma endswith_trans (s n p : string) :
  Py.endswith s n = true -> Py.endswith n p = true -> Py.endswith s p = true.
Proof.
  rewrite !endswith_spec. intros [q1 H1] [q2 H2]. exists (q1 ++ q2)%list.
  by rewrite H1, H2, app_assoc.
Qed.

Lemma path_join_endswith (a b : string) : Py.endswith (Py.path_join a b) b = true.
Proof.
  unfold Py.path_join.
  destruct (Py.startswith b "/"); [apply endswith_spec; by exists []|].
  destruct ((a =? "") || Py.endswith a "/"); [apply endswith_app|].
  rewrite <- str_app_assoc. apply endswith_app.
Qed.

(** [FileOperation.create_file] always names a [.txt] file. *)
Lemma create_file_txt (data_folder url : string) :
  Py.endswith (create_file data_folder url) ".txt" = true.
Proof.
  unfold create_file.
  set (b := Url.netloc (Url.urlparse url) ++ "_" ++ _ ++ ".txt").
  eapply endswith_trans; [apply path_join_endswith|].
  subst b. rewrite <- !str_app_assoc. apply endswith_app.
Qed.

Lemma txt_no_overlap (p r : list ascii) :
  (p ++ Py.chars ".txt")%list = (Py.chars ".txt" ++ r)%list -> p <> [] ->
  exists p', p = (Py.chars ".txt" ++ p')%list.
Proof.
  intros H Hp. destruct p as [|a [|b [|c [|d p']]]]; cbn in H; try congruence.
  injection H as -> -> -> -> _. by exists p'.
Qed.

Lemma replace_aux_cons f old new x l :
  Py.replace_aux (S f) old new (x :: l) =
  if Py.prefix_of old (x :: l) then (new ++ Py.replace_aux f old new (skipn (length old) (x :: l)))%list
  else x :: Py.replace_aux f old new l.
Proof. reflexivity. Qed.

Lemma replace_aux_txt fuel (p : list ascii) :
  length (p ++ Py.chars ".txt") <= fuel ->
  exists q, Py.replace_aux fuel (Py.chars ".txt") (Py.chars ".pdf") (p ++ Py.chars ".txt") =
            (q ++ Py.chars ".pdf")%list.
Proof.
  revert p; induction fuel as [|f IH]; intros p Hlen.
  - rewrite length_app in Hlen. cbn in Hlen. lia.
  - destruct p as [|a p0].
    { exists []. by destruct f. }
    cbn [app]. rewrite replace_aux_cons.
    destruct (Py.prefix_of (Py.chars ".txt") (a :: p0 ++ Py.chars ".txt")) eqn:Hpre.
    + apply prefix_of_spec in Hpre as [r Hr].
      destruct (txt_no_overlap (a :: p0) r Hr ltac:(done)) as [p' Hp'].
      change (a :: (p0 ++ Py.chars ".txt"))%list with ((a :: p0) ++ Py.chars ".txt")%list.
      rewrite Hp', <- app_assoc. rewrite skipn_app, skipn_all, Nat.sub_diag.
      cbn [skipn app].
      rewrite Hp', !length_app in Hlen.
      destruct (IH p') as [q Hq]; [rewrite length_app; cbn in *; lia|].
      rewrite drop_0, Hq. exists (Py.chars ".pdf" ++ q)%list. by rewrite app_assoc.
    + destruct (IH p0) as [q Hq]; [rewrite length_app in *; cbn in *; lia|].
      rewrite Hq. by exists (a :: q).
Qed.

Lemma endswith_of_chars (s : string) q p :
  Py.chars s = (q ++ Py.chars p)%list -> Py.endswith s p = true.
Proof. intros H. apply endswith_spec. eauto. Qed.

(** The file name used by [FileOperation.write_pdf] always ends with
    ".pdf" and never with ".txt". *)
Theorem pdf_filename_ext (data_folder url : string) :
  Py.endswith (pdf_filename data_folder url) ".pdf" = true /\
  Py.endswith (pdf_filename data_folder url) ".txt" = false.
Proof.
  assert (Hq : exists q, Py.chars (pdf_filename data_folder url) = (q ++ Py.chars ".pdf")%list).
  { unfold pdf_filename, Py.replace. rewrite chars_str.
    destruct (proj1 (endswith_spec _ _) (create_file_txt data_folder url)) as [p Hp].
    rewrite Hp. apply replace_aux_txt. by rewrite <- Hp. }
  destruct Hq as [q Hq]. split; [by eapply endswith_of_chars|].
  unfold Py.endswith. rewrite Hq, rev_app_distr. reflexivity.
Qed.

Lemma load_loop_app d l1 l2 read :
  Chatbot.load_loop d (l1 ++ l2) read = (Chatbot.load_loop d l1 read ++ Chatbot.load_loop d l2 read)%list.
Proof. induction l1 as [|n l1 IH]; cbn [Chatbot.load_loop app]; [done|]. destruct (Py.endswith n ".txt"); by rewrite IH. Qed.

(** [chatbot.load_and_process_files] never loads a PDF saved by
    [write_pdf]: a listed name that is a suffix of [pdf_filename url] with
    at least 4 characters contributes nothing to the loaded texts. *)
Theorem chatbot_skips_pdf_files (data_folder url : string) (n : string) l1 l2 read :
  Py.endswith (pdf_filename data_folder url) n = true -> 4 <= length (Py.chars n) ->
  Chatbot.load_and_process_files data_folder (l1 ++ n :: l2) read =
    (Chatbot.load_and_process_files data_folder l1 read ++
     Chatbot.load_and_process_files data_folder l2 read)%list.
Proof.
  intros Hn Hlen. unfold Chatbot.load_and_process_files. rewrite load_loop_app. cbn [Chatbot.load_loop].
  destruct (pdf_filename_ext data_folder url) as [Hpdf Htxt].
  assert (Hn' : Py.endswith n ".txt" = false).
  { destruct (Py.endswith n ".txt") eqn:E; [|done].
    rewrite <- Htxt. symmetry. eapply endswith_trans; [exact Hn|exact E]. }
  by rewrite Hn'.
Qed.

Lemma lower_char_idem c : Py.lower_char (Py.lower_char c) = Py.lower_char c.
Proof. destruct c as [[] [] [] [] [] [] [] []]; reflexivity. Qed.

(** The routing of [scrape]'s link loop depends only on the lowercased URL:
    a link and its lowercase form are routed alike. *)
Theorem route_of_case_insensitive link : route_of (Py.lower link) = route_of link.
Proof.
  unfold route_of, Py.lower. rewrite chars_str, map_map.
  rewrite (map_ext _ _ lower_char_idem). done.
Qed.

Lemma find_from_none c l i : Py.find_from c l i = None -> c ∉ l.
Proof.
  revert i; induction l as [|x l IH]; intros i H; cbn in H; [apply not_elem_of_nil|].
  destruct (Ascii.eqb_spec x c); [done|]. apply not_elem_of_cons. split; [congruence|]. eauto.
Qed.

Lemma find_from_some c l i k : Py.find_from c l i = Some k -> i <= k /\ c ∉ firstn (k - i) l.
Proof.
  revert i; induction l as [|x l IH]; intros i H; cbn in H; [done|].
  destruct (Ascii.eqb_spec x c).
  - injection H as <-. rewrite Nat.sub_diag. split; [lia|]. apply not_elem_of_nil.
  - destruct (IH (S i) H) as [Hle Hn]. split; [lia|].
    replace (k - i) with (S (k - S i)) by lia. cbn. apply not_elem_of_cons. split; [congruence|done].
Qed.

Lemma not_elem_of_firstn_le {A} (c : A) l n m : n <= m -> c ∉ firstn m l -> c ∉ firstn n l.
Proof.
  intros Hle Hm Hn. apply Hm. rewrite <- (firstn_skipn n (firstn m l)).
  rewrite firstn_firstn, Nat.min_l by lia. apply elem_of_app. by left.
Qed.

Lemma split_netloc_excludes c (l : list ascii) d :
  d <= Url.min_opt (length l) (Py.find_char c l 2) -> c ∉ skipn 2 (firstn d l).
Proof.
  intros Hd. rewrite skipn_firstn_comm. unfold Py.find_char, Url.min_opt in Hd.
  destruct (Py.find_from c (skipn 2 l) 0) as [k|] eqn:Hf; cbn in Hd.
  - apply find_from_some in Hf as [_ Hn]. rewrite Nat.sub_0_r in Hn.
    eapply not_elem_of_firstn_le; [|exact Hn]. lia.
  - apply find_from_none in Hf. intros Hin. apply Hf. rewrite <- (firstn_skipn (d - 2) (skipn 2 l)).
    apply elem_of_app. by left.
Qed.

Lemma netloc_delims url :
  ("/"%char ∉ Py.chars (Url.netloc (Url.urlparse url))) /\
  ("?"%char ∉ Py.chars (Url.netloc (Url.urlparse url))) /\
  ("#"%char ∉ Py.chars (Url.netloc (Url.urlparse url))).
Proof.
  unfold Url.urlparse. destruct (Url.split_scheme (Url.sanitize (Py.chars url))) as [sch rest].
  destruct (Py.prefix_of (Py.chars "//") rest).
  - destruct (Url.split_netloc rest) as [net r0] eqn:Hs.
    repeat match goal with |- context [match ?x with (_, _) => _ end] => destruct x end.
    cbn [Url.netloc]. rewrite chars_str.
    unfold Url.split_netloc in Hs. injection Hs as <- _.
    assert (Hmin : forall x y, Url.min_opt x y <= x).
    { intros x [y|]; cbn; lia. }
    assert (Hmono : forall x x' y, x <= x' -> Url.min_opt x y <= Url.min_opt x' y).
    { intros x x' [y|] H; cbn; lia. }
    split; [|split]; apply split_netloc_excludes.
    + etransitivity; [apply Hmin|]. etransitivity; [apply Hmin|]. done.
    + etransitivity; [apply Hmin|]. apply Hmono, Hmin.
    + pose proof (Hmin (Url.min_opt (length rest) (Py.find_char "/" rest 2))
                       (Py.find_char "?" rest 2)).
      pose proof (Hmin (length rest) (Py.find_char "/" rest 2)).
      destruct (Py.find_char "#" rest 2) eqn:E; cbn [Url.min_opt]; lia.
  - repeat match goal with |- context [match ?x with (_, _) => _ end] => destruct x end.
    cbn. split; [|split]; apply not_elem_of_nil.
Qed.

(** The netloc returned by [urlparse] never contains '/', '?' or '#'. *)
Theorem netloc_has_no_delimiters url :
  ("/"%char ∉ Py.chars (Url.netloc (Url.urlparse url))) /\
  ("?"%char ∉ Py.chars (Url.netloc (Url.urlparse url))) /\
  ("#"%char ∉ Py.chars (Url.netloc (Url.urlparse url))).
Proof. apply netloc_delims. Qed.

Lemma replace_slash_aux fuel (l : list ascii) :
  "/"%char ∉ Py.replace_aux fuel (Py.chars "/") (Py.chars "_") l \/ length l > fuel.
Proof.
  revert l; induction fuel as [|f IH]; intros l.
  - destruct l; [left; apply not_elem_of_nil|right; cbn; lia].
  - destruct l as [|x l]; [left; apply not_elem_of_nil|].
    rewrite replace_aux_cons. cbn [length].
    destruct (IH l) as [H|H]; [|right; lia]. left.
    destruct (Py.prefix_of (Py.chars "/") (x :: l)) eqn:E.
    + apply not_elem_of_cons. split; [done|]. exact H.
    + apply not_elem_of_cons. split; [|exact H].
      intros <-. cbn in E. discriminate.
Qed.

Lemma replace_slash_none (s : string) : "/"%char ∉ Py.chars (Py.replace s "/" "_").
Proof.
  unfold Py.replace. rewrite chars_str.
  destruct (replace_slash_aux (length (Py.chars s)) (Py.chars s)) as [H|H]; [done|lia].
Qed.

Lemma create_file_split (data_folder url : string) :
  exists b, ("/"%char ∉ Py.chars b) /\ Py.endswith b ".txt" = true /\
    Py.startswith b "/" = false /\ create_file data_folder url = Py.path_join data_folder b.
Proof.
  unfold create_file.
  set (path := Py.replace (Py.strip "/" (Url.path (Url.urlparse url))) "/" "_").
  set (p := if path =? "" then "index" else path).
  set (net := Url.netloc (Url.urlparse url)).
  assert (Hp : "/"%char ∉ Py.chars p).
  { subst p. destruct (path =? ""); [cbn; set_solver|apply replace_slash_none]. }
  assert (Hn : "/"%char ∉ Py.chars net) by apply netloc_delims.
  assert (Hb : "/"%char ∉ Py.chars (net ++ "_" ++ p ++ ".txt")).
  { rewrite !chars_app, !elem_of_app. cbn. set_solver. }
  exists (net ++ "_" ++ p ++ ".txt"). split; [done|]. split.
  - rewrite <- !str_app_assoc. apply endswith_app.
  - split; [|done].
    destruct (Py.startswith _ "/") eqn:E; [|done]. exfalso. apply Hb.
    unfold Py.startswith in E. apply prefix_of_spec in E as [r Hr]. rewrite Hr. by left.
Qed.

(** [FileOperation.create_file] names a file directly inside
    [data_folder]: the name joined to the folder contains no '/', ends with
    ".txt", and is joined as [os.path.join] joins a relative name. *)
Theorem create_file_in_folder (data_folder url : string) :
  exists b, ("/"%char ∉ Py.chars b) /\ Py.endswith b ".txt" = true /\
    create_file data_folder url =
      if (data_folder =? "") || Py.endswith data_folder "/" then data_folder ++ b
      else data_folder ++ "/" ++ b.
Proof.
  destruct (create_file_split data_folder url) as (b & Hs & Ht & Hst & ->).
  exists b. split; [done|]. split; [done|]. unfold Py.path_join. by rewrite Hst.
Qed.

(** Every page text the crawl writes is loaded by the chatbot: the file of
    [create_file url] has a plain name (no '/') in [data_folder], and
    wherever [os.listdir] lists that name, [load_and_process_files] reads
    the file [create_file url] at that place. *)
Theorem chatbot_loads_every_page (data_folder url : string) :
  exists b, ("/"%char ∉ Py.chars b) /\
    forall l1 l2 read,
      Chatbot.load_and_process_files data_folder (l1 ++ b :: l2) read =
        (Chatbot.load_and_process_files data_folder l1 read ++
         read (create_file data_folder url) :: Chatbot.load_and_process_files data_folder l2 read)%list.
Proof.
  destruct (create_file_split data_folder url) as (b & Hs & Ht & Hst & Hc).
  exists b. split; [done|]. intros l1 l2 read.
  unfold Chatbot.load_and_process_files. rewrite load_loop_app. cbn [Chatbot.load_loop].
  by rewrite Ht, Hc.
Qed.

(* ------------------------------------------------------------------ *)
(** ** Runs of the crawl on concrete sites *)

(** C2: [download_pdf] writes a terminal status without a claim: on a
    resumed crawl it turns the [success] recorded for a PDF into [failed],
    and on an empty ledger it creates a [failed] entry that never was
    [pending]. *)
Theorem resume_pdf_terminal_overwritten :
  load_status (Some (<[site_pdf := Success]> ∅)) !! site_pdf = Some Success /\
  ledger (snd resume_run) !! site_pdf = Some Failed /\
  ledger (snd (download_pdf main_data_folder resume_net site_pdf
                 {| ledger := ∅; trace := [] |})) = <[site_pdf := Failed]> ∅.
Proof. split; [|split]; vm_compute; reflexivity. Qed.

(** C3: on a resumed crawl, a PDF recorded as [success] in the loaded
    status file is requested again by [download_pdf]. *)
Theorem resume_refetches_terminal_pdf :
  load_status (Some (<[site_pdf := Success]> ∅)) !! site_pdf = Some Success /\
  requested PdfDownload site_pdf (trace (snd resume_run)) = true.
Proof. split; vm_compute; reflexivity. Qed.

(** C4: a transport exception in the HTML fetch is not handled like a
    non-200 status: it escapes [scrape] (for the seed, [main] itself) and
    the URL stays [pending]. *)
Theorem transport_error_escapes_scrape :
  fst down_run = Exn "Cannot connect to host www.wscacademy.org:443" /\
  ledger (snd down_run) !! mainurl = Some Pending.
Proof. split; vm_compute; reflexivity. Qed.


(** C5 (counterexample): a linked URL whose path ends in ".pdf" but which
    carries a query string is fetched on the HTML path and never by
    [download_pdf]. *)
Theorem pdf_path_with_query_on_html_path :
  Py.endswith (Url.path (Url.urlparse site_pdf_query)) ".pdf" = true /\
  requested HtmlFetch site_pdf_query (trace (snd query_run)) = true /\
  requested PdfDownload site_pdf_query (trace (snd query_run)) = false.
Proof. split; [|split]; vm_compute; reflexivity. Qed.

(** C6 (counterexample): a link whose host is the crawled host but whose
    netloc carries an explicit port fails [check_link] and is logged as
    external. *)
Theorem port_link_same_host_classified_external :
  host_of (Url.netloc (Url.urlparse site_port_link)) = main_domain /\
  check_link main_domain site_port_link = false /\
  extract_links main_domain (list string) (fun hs => hs) (fun _ href => Some href)
    [site_port_link] mainurl {| ledger := ∅; trace := [] |} =
    (Ret [], {| ledger := ∅; trace := [EvExtern site_port_link] |}).
Proof. split; [|split]; vm_compute; reflexivity. Qed.

(** C7: [create_file] gives [host.tld_index.txt] for an empty path and
    [host.tld_a_b.txt] for [/a/b], but [write_pdf] replaces every ".txt"
    of that name, so a PDF whose path contains ".txt" is not saved under
    host + sanitized path + ".pdf". *)
Theorem pdf_filename_replaces_inner_txt :
  create_file main_data_folder "https://host.tld/" = "wscadata/host.tld_index.txt" /\
  create_file main_data_folder "https://host.tld/a/b" = "wscadata/host.tld_a_b.txt" /\
  create_file main_data_folder "https://www.wscacademy.org/notes.txt.pdf" =
    "wscadata/www.wscacademy.org_notes.txt.pdf.txt" /\
  pdf_filename main_data_folder "https://www.wscacademy.org/notes.txt.pdf" =
    "wscadata/www.wscacademy.org_notes.pdf.pdf.pdf".
Proof. split; [|split; [|split]]; vm_compute; reflexivity. Qed.

(* ------------------------------------------------------------------ *)
(** ** Witnesses: the theorems with hypotheses, applied at concrete inputs *)

Lemma claim_exactly_one_owner_witness :
  (∅ : gmap string status) !! mainurl = None /\
  claim ∅ mainurl = (true, <[mainurl := Pending]> ∅).
Proof.
  split; [reflexivity|].
  apply (proj1 (proj2 (claim_exactly_one_owner ∅ mainurl))). reflexivity.
Defined.

Lemma links_routed_by_url_suffix_witness :
  (∅ : gmap string status) !! mainurl = None /\
  exists rest,
    trace (snd (scrape main_domain main_data_folder main_request_delay query_net
                  (list string) query_pages (fun hs => hs) (fun _ href => Some href)
                  (fun _ => Some "text") 3 mainurl {| ledger := ∅; trace := [] |})) =
    ([] ++ [EvPrint ("Visiting: " ++ mainurl); EvGet HtmlFetch mainurl] ++ rest)%list.
Proof.
  split; [reflexivity|].
  apply (proj2 (proj2 (links_routed_by_url_suffix main_domain main_data_folder
    main_request_delay query_net (list string) query_pages (fun hs => hs)
    (fun _ href => Some href) (fun _ => Some "text")))).
  reflexivity.
Defined.

Lemma extract_links_netloc_partition_witness :
  mapM (fun href => Some href) [site_port_link; mainurl] = Some [site_port_link; mainurl] /\
  exists links,
    extract_links main_domain (list string) (fun hs => hs) (fun _ href => Some href)
      [site_port_link; mainurl] mainurl {| ledger := ∅; trace := [] |} =
      (Ret links,
       {| ledger := ∅;
          trace := [] ++ map EvExtern (List.filter (fun u => negb (check_link main_domain u))
                                         [site_port_link; mainurl]) |}) /\
    NoDup links /\
    (forall x, x ∈ links <-> x ∈ [site_port_link; mainurl] /\ check_link main_domain x = true) /\
    (forall x, check_link main_domain x = true ->
       EvExtern x ∉ map EvExtern (List.filter (fun u => negb (check_link main_domain u))
                                   [site_port_link; mainurl])).
Proof.
  split; [reflexivity|].
  apply (proj2 (extract_links_netloc_partition main_domain resume_net (list string)
    resume_pages (fun hs => hs) (fun _ href => Some href) (fun _ => Some "text"))
    [site_port_link; mainurl] mainurl [site_port_link; mainurl] {| ledger := ∅; trace := [] |}).
  reflexivity.
Defined.

Lemma scrape_processing_error_caught_witness :
  (∅ : gmap string status) !! mainurl = None /\
  query_net mainurl = Response 200 "home" /\
  exists e w',
    scrape main_domain main_data_folder main_request_delay query_net (list string)
      (fun _ => None) (fun hs => hs) (fun _ href => Some href) (fun _ => Some "text")
      3 mainurl {| ledger := ∅; trace := [] |} = (Ret tt, w') /\
    ledger w' !! mainurl = Some Success /\
    EvPrint ("An error occurred while processing " ++ mainurl ++ ": " ++ e) ∈ trace w'.
Proof.
  split; [reflexivity|]. split; [reflexivity|].
  apply (scrape_processing_error_caught main_domain main_data_folder main_request_delay
    query_net (list string) (fun _ => None) (fun hs => hs) (fun _ href => Some href)
    (fun _ => Some "text") 2 mainurl "home" {| ledger := ∅; trace := [] |});
    [reflexivity | reflexivity | left; reflexivity].
Defined.


Lemma chatbot_skips_pdf_files_witness :
  Py.endswith (pdf_filename main_data_folder site_pdf) "www.wscacademy.org_doc.pdf.pdf" = true /\
  4 <= length (Py.chars "www.wscacademy.org_doc.pdf.pdf") /\
  Chatbot.load_and_process_files main_data_folder
    (["index.txt"] ++ "www.wscacademy.org_doc.pdf.pdf" :: ["www.wscacademy.org_.txt"]) (fun p => p) =
    (Chatbot.load_and_process_files main_data_folder ["index.txt"] (fun p => p) ++
     Chatbot.load_and_process_files main_data_folder ["www.wscacademy.org_.txt"] (fun p => p))%list.
Proof.
  split; [reflexivity|]. split; [cbn; lia|].
  apply (chatbot_skips_pdf_files main_data_folder site_pdf "www.wscacademy.org_doc.pdf.pdf"
    ["index.txt"] ["www.wscacademy.org_.txt"] (fun p => p)); [reflexivity|cbn; lia].
Defined.
